(** * update_lot.py: rewriting the hours of one course in a CSV table

    The script is three library calls: [pd.read_csv] loads a course table,
    a masked [df.loc[...] = ...] assignment overwrites two columns on the
    rows of one course, and [df.to_csv] writes the table back over the file
    it came from.

    The embedding follows the script call by call.  A [DataFrame] is kept
    column-major, as the library keeps it; the file system is a finite map
    from paths to file contents, threaded through a state-and-error monad;
    exceptions are values of [Error].  The text format of CSV files belongs
    to the library and enters as an interface ([CsvCodec]); a codec for
    plain files is given as an instance and runs the script on concrete
    files.  The library behaviour modelled is that of pandas 2.x. *)

From Stdlib Require Import ZArith String Ascii Floats.SpecFloat.
From stdpp Require Import base option list strings pretty gmap.

Local Open Scope string_scope.
Local Open Scope list_scope.
Local Open Scope Z_scope.

(** ** Scalars and columns *)

(** IEEE double precision, as specified by [SpecFloat]. *)
Definition float64_prec : Z := 53.
Definition float64_emax : Z := 1024.

(** What a cell of a frame read from a CSV file can hold: a machine integer,
    a double (which includes the missing value NaN), a boolean or a text. *)
Inductive scalar : Type :=
  | SInt (z : Z)
  | SFloat (f : spec_float)
  | SBool (b : bool)
  | SStr (s : string).

Definition NaN : scalar := SFloat S754_nan.

#[global] Instance spec_float_eq_dec : EqDecision spec_float.
Proof. solve_decision. Defined.

#[global] Instance scalar_eq_dec : EqDecision scalar.
Proof. solve_decision. Defined.

(** The library's column types, for the columns [read_csv] builds. *)
Inductive dtype : Type := int64 | float64 | bool_ | object.

(** The Python integers that an [int64] column can hold in place.  The
    script assigns [3] and [4]. *)
Definition int64_min : Z := - 2 ^ 63.
Definition int64_max : Z := 2 ^ 63 - 1.

Definition fits_int64 (z : Z) : bool := (int64_min <=? z) && (z <=? int64_max).

Record Int64 : Type := mk_int64 {
  int64_val : Z;
  int64_fits : Is_true (fits_int64 int64_val)
}.

(** [float(z)]: conversion of an integer to the nearest double. *)
Definition float_of_Z (z : Z) : spec_float :=
  binary_normalize float64_prec float64_emax z 0 false.

Record Series : Type := mk_series {
  name : string;
  values : list scalar
}.

(** A frame is a [RangeIndex] of [nrows] rows and an ordered list of named
    columns. *)
Record DataFrame : Type := mk_frame {
  nrows : nat;
  columns : list Series
}.

Definition column_names (df : DataFrame) : list string := name <$> columns df.

(** Every column spans the index. *)
Definition rectangular (df : DataFrame) : bool :=
  forallb (λ c, Nat.eqb (length (values c)) (nrows df)) (columns df).

Definition is_float (v : scalar) : bool :=
  match v with SFloat _ => true | _ => false end.

Definition is_int (v : scalar) : bool :=
  match v with SInt _ => true | _ => false end.

Definition is_bool (v : scalar) : bool :=
  match v with SBool _ => true | _ => false end.

(** A column built by [read_csv] is homogeneous, so its dtype is read off
    its cells: all integers, all doubles (NaN is a double), all booleans, or
    [object] for anything else, the empty column included. *)
Definition dtype_of (vs : list scalar) : dtype :=
  match vs with
  | [] => object
  | _ =>
      if forallb is_int vs then int64
      else if forallb is_float vs then float64
      else if forallb is_bool vs then bool_
      else object
  end.

(** ** Exceptions *)

Inductive Error : Type :=
  | FileNotFoundError (path : string)
  | EmptyDataError
  | ParserError
  | KeyError (label : string)
  | ValueError.

Inductive result (A : Type) : Type :=
  | Ok (a : A)
  | Err (e : Error).
Arguments Ok {A} a.
Arguments Err {A} e.

#[global] Instance result_ret : MRet result := λ A a, Ok a.
#[global] Instance result_bind : MBind result := λ A B f m,
  match m with Ok a => f a | Err e => Err e end.

(** ** Indexing *)

Definition find_column (df : DataFrame) (label : string) : option Series :=
  find (λ c, String.eqb (name c) label) (columns df).

Definition has_column (df : DataFrame) (label : string) : bool :=
  existsb (λ c, String.eqb (name c) label) (columns df).

(** [df[label]] *)
Definition getitem (df : DataFrame) (label : string) : result Series :=
  match find_column df label with
  | Some c => Ok c
  | None => Err (KeyError label)
  end.

(** The cell of row [i] under column [label]. *)
Definition cell (df : DataFrame) (i : nat) (label : string) : option scalar :=
  c ← find_column df label; values c !! i.

(** Row [i] as the ordered list of its fields. *)
Definition row (df : DataFrame) (i : nat) : list (string * option scalar) :=
  (λ c, (name c, values c !! i)) <$> columns df.

(** [v == s] for a text [s]: only a text cell with the same characters
    compares equal. *)
Definition scalar_eq_str (v : scalar) (s : string) : bool :=
  match v with
  | SStr t => String.eqb t s
  | _ => false
  end.

(** [series == s], elementwise. *)
Definition series_eq (c : Series) (s : string) : list bool :=
  (λ v, scalar_eq_str v s) <$> values c.

(** ** Masked assignment *)

(** The value as the column stores it: a double in a [float64] column, the
    integer itself elsewhere (an [int64] column holds it, an [object] column
    holds anything, a [bool] column is turned into an [object] one). *)
Definition store (vs : list scalar) (z : Int64) : scalar :=
  match dtype_of vs with
  | float64 => SFloat (float_of_Z (int64_val z))
  | _ => SInt (int64_val z)
  end.

(** Overwrite the cells selected by the mask. *)
Fixpoint putmask (mask : list bool) (x : scalar) (vs : list scalar) : list scalar :=
  match vs, mask with
  | v :: vs', m :: mask' => (if m then x else v) :: putmask mask' x vs'
  | _, _ => vs
  end.

Definition setitem_single_column (mask : list bool) (z : Int64) (c : Series) : Series :=
  mk_series (name c) (putmask mask (store (values c) z) (values c)).

(** Labels of the key that are not columns yet become columns of NaN, after
    the existing ones and in the order of the key. *)
Definition ensure_listlike_indexer (df : DataFrame) (key : list string) : DataFrame :=
  foldl (λ df k,
           if has_column df k then df
           else mk_frame (nrows df)
                  (columns df ++ [mk_series k (replicate (nrows df) NaN)]))
        df key.

(** Assign [z] to the selected rows of every column labelled [k]. *)
Definition setitem_label (mask : list bool) (df : DataFrame) (kz : string * Int64) : DataFrame :=
  mk_frame (nrows df)
    ((λ c, if String.eqb (name c) kz.1 then setitem_single_column mask kz.2 c else c)
       <$> columns df).

(** [df.loc[mask, key] = value] for a list of labels and a list of
    integers, one for each label. *)
Definition loc_setitem (df : DataFrame) (mask : list bool)
    (key : list string) (value : list Int64) : result DataFrame :=
  if bool_decide (length key = length value) then
    Ok (foldl (setitem_label mask) (ensure_listlike_indexer df key) (zip key value))
  else Err ValueError.

(** ** The update *)

(** Line 7 of the script, with the course and the two hours as parameters:
    [df.loc[df['course_name'] == course_name,
            ['lecture_hours', 'practical_hours']] = [lecture_hours, practical_hours]].
    The key column is looked up first, so a frame without it raises before
    anything is assigned. *)
Definition set_course_hours (course_name : string)
    (lecture_hours practical_hours : Int64) (df : DataFrame) : result DataFrame :=
  key ← getitem df "course_name";
  loc_setitem df (series_eq key course_name)
    ["lecture_hours"; "practical_hours"] [lecture_hours; practical_hours].

(** ** Files *)

(** The storage: file contents by path. *)
Abbreviation FileSystem := (gmap string string).

(** Computations that read and write files and may raise. *)
Definition IO (A : Type) : Type := FileSystem → FileSystem * result A.

#[global] Instance io_ret : MRet IO := λ A a fs, (fs, Ok a).
#[global] Instance io_bind : MBind IO := λ A B f m fs,
  match m fs with
  | (fs', Ok a) => f a fs'
  | (fs', Err e) => (fs', Err e)
  end.

Definition lift {A : Type} (r : result A) : IO A := λ fs, (fs, r).

(** The text format of the library: how [read_csv] turns the characters of a
    file into a frame, and how [to_csv(index=False)] prints one. *)
Class CsvCodec : Type := {
  parse : string → result DataFrame;
  render : DataFrame → string
}.

Section Script.
Context `{csv : CsvCodec}.

(** [pd.read_csv(path)] *)
Definition read_csv (path : string) : IO DataFrame := λ fs,
  match fs !! path with
  | Some text => (fs, parse text)
  | None => (fs, Err (FileNotFoundError path))
  end.

(** [df.to_csv(path, index=False)]: the file is replaced as a whole.  The
    write itself is taken to succeed. *)
Definition to_csv (df : DataFrame) (path : string) : IO unit := λ fs,
  (<[path := render df]> fs, Ok ()).

(** The three statements of the script over a source file. *)
Definition update_course_hours (source course_name : string)
    (lecture_hours practical_hours : Int64) : IO unit :=
  df ← read_csv source;
  df ← lift (set_course_hours course_name lecture_hours practical_hours df);
  to_csv df source.

Definition csv_path : string := "data/courses/first_year_data.csv".
Definition three : Int64 := mk_int64 3 I.
Definition four : Int64 := mk_int64 4 I.

(** The script, with its constants. *)
Definition update_lot : IO unit :=
  update_course_hours csv_path "Programming using C" three four.
End Script.

(** ** A codec for plain files

    The dialect: lines end in a line feed; fields are separated by commas
    and never quoted; a field is empty, a decimal integer of at most fifteen
    digits with an optional minus sign, or a plain text (letters, digits,
    spaces and underscores, starting with a letter, not ending in a space,
    and none of the words the library reads as a missing value, a boolean or
    a float); every line has as many fields as the header; the header names
    are distinct plain texts.  Inside the dialect the codec reads and prints
    as the library does.  Anything else is refused with [ParserError], and
    this is where the codec and the library part ways. *)
Module Plain.

Definition LF : ascii := ascii_of_nat 10.

(** [s.split(sep)] *)
Fixpoint split_on (sep : ascii) (s : string) : list string :=
  match s with
  | EmptyString => [EmptyString]
  | String c s' =>
      if Ascii.eqb c sep then EmptyString :: split_on sep s'
      else match split_on sep s' with
           | t :: ts => String c t :: ts
           | [] => [String c EmptyString]
           end
  end.

Definition is_empty (s : string) : bool :=
  match s with EmptyString => true | _ => false end.

Definition is_some {A : Type} (o : option A) : bool :=
  match o with Some _ => true | None => false end.

Definition digit_of (c : ascii) : option Z :=
  let n := Z.of_nat (nat_of_ascii c) - 48 in
  if (0 <=? n) && (n <=? 9) then Some n else None.

Fixpoint digits_to_Z (acc : Z) (s : string) : option Z :=
  match s with
  | EmptyString => Some acc
  | String c s' => d ← digit_of c; digits_to_Z (10 * acc + d) s'
  end.

Definition unsigned_token (s : string) : option Z :=
  if is_empty s || (15 <? String.length s)%nat then None else digits_to_Z 0 s.

Definition int_token (s : string) : option Z :=
  match s with
  | String "-" s' => Z.opp <$> unsigned_token s'
  | _ => unsigned_token s
  end.

Definition is_letter (c : ascii) : bool :=
  let n := nat_of_ascii c in
  ((65 <=? n) && (n <=? 90) || (97 <=? n) && (n <=? 122))%nat.

Definition is_word_char (c : ascii) : bool :=
  is_letter c || is_some (digit_of c) || Ascii.eqb c " " || Ascii.eqb c "_".

Definition lower (c : ascii) : ascii :=
  let n := nat_of_ascii c in
  if ((65 <=? n) && (n <=? 90))%nat then ascii_of_nat (n + 32) else c.

Fixpoint lowercase (s : string) : string :=
  match s with
  | EmptyString => EmptyString
  | String c s' => String (lower c) (lowercase s')
  end.

Fixpoint last_char (s : string) : option ascii :=
  match s with
  | EmptyString => None
  | String c EmptyString => Some c
  | String _ s' => last_char s'
  end.

(** Words that [read_csv] does not keep as text. *)
Definition reserved : list string :=
  ["nan"; "na"; "null"; "none"; "inf"; "infinity"; "true"; "false"].

Definition plain_text (s : string) : bool :=
  match s with
  | EmptyString => false
  | String c _ =>
      is_letter c
      && forallb is_word_char (list_ascii_of_string s)
      && negb (bool_decide (last_char s = Some " "%char))
      && negb (bool_decide (lowercase s ∈ reserved))
  end.

Definition field_ok (s : string) : bool :=
  is_empty s || is_some (int_token s) || plain_text s.

(** The cells of one column, from its fields. *)
Definition infer_column (fields : list string) : list scalar :=
  if forallb (λ s, is_empty s || is_some (int_token s)) fields then
    if forallb (λ s, negb (is_empty s)) fields then
      (λ s, SInt (default 0 (int_token s))) <$> fields
    else
      (λ s, match int_token s with
            | Some z => SFloat (float_of_Z z)
            | None => NaN
            end) <$> fields
  else
    (λ s, if is_empty s then NaN else SStr s) <$> fields.

Definition parse_plain (text : string) : result DataFrame :=
  match filter (λ l, l ≠ EmptyString) (split_on LF text) with
  | [] => Err EmptyDataError
  | header :: lines =>
      let names := split_on "," header in
      let rows := split_on "," <$> lines in
      if forallb plain_text names
         && bool_decide (NoDup names)
         && forallb (λ r, bool_decide (length r = length names) && forallb field_ok r) rows
      then
        Ok (mk_frame (length rows)
              (imap (λ j n, mk_series n
                              (infer_column ((λ r, default EmptyString (r !! j)) <$> rows)))
                    names))
      else Err ParserError
  end.

(** The integer a double stands for, if it stands for one. *)
Definition float_to_Z (f : spec_float) : option Z :=
  match f with
  | S754_zero _ => Some 0
  | S754_finite s m e =>
      let m' := if s then Z.neg m else Z.pos m in
      if 0 <=? e then Some (m' * 2 ^ e)
      else if Z.pos m mod 2 ^ (- e) =? 0 then Some (m' / 2 ^ (- e))
      else None
  | _ => None
  end.

(** Doubles of fewer than sixteen digits and no fraction print as the
    integer followed by [.0]; the others are outside the dialect. *)
Definition print_float (f : spec_float) : string :=
  match f with
  | S754_nan => ""
  | S754_infinity s => if s then "-inf" else "inf"
  | S754_zero s => if s then "-0.0" else "0.0"
  | S754_finite s m e =>
      match float_to_Z f with
      | Some z => pretty z +:+ ".0"
      | None => pretty (if s then Z.neg m else Z.pos m) +:+ "p" +:+ pretty e
      end
  end.

Definition print_scalar (v : option scalar) : string :=
  match v with
  | Some (SInt z) => pretty z
  | Some (SFloat f) => print_float f
  | Some (SBool b) => if b then "True" else "False"
  | Some (SStr s) => s
  | None => ""
  end.

Definition print_line (fields : list string) : string :=
  String.concat "," fields +:+ String LF EmptyString.

Definition render_plain (df : DataFrame) : string :=
  String.concat ""
    (print_line (column_names df)
     :: ((λ i, print_line ((λ c, print_scalar (values c !! i)) <$> columns df))
           <$> seq 0 (nrows df))).

#[global] Instance codec : CsvCodec := {| parse := parse_plain; render := render_plain |}.

(** File contents from lines. *)
Definition unlines (ls : list string) : string :=
  String.concat "" ((λ l, l +:+ String LF EmptyString) <$> ls).

End Plain.

(** ** The scenario of the specification *)

Definition scenario_in : DataFrame :=
  mk_frame 2
    [ mk_series "course_name" [SStr "Programming using C"; SStr "Calculus"];
      mk_series "lecture_hours" [SInt 2; SInt 3];
      mk_series "practical_hours" [SInt 2; SInt 0] ].

Definition scenario_out : DataFrame :=
  mk_frame 2
    [ mk_series "course_name" [SStr "Programming using C"; SStr "Calculus"];
      mk_series "lecture_hours" [SInt 3; SInt 3];
      mk_series "practical_hours" [SInt 4; SInt 0] ].

Definition scenario_file_in : string :=
  Plain.unlines
    [ "course_name,lecture_hours,practical_hours";
      "Programming using C,2,2";
      "Calculus,3,0" ].

Definition scenario_file_out : string :=
  Plain.unlines
    [ "course_name,lecture_hours,practical_hours";
      "Programming using C,3,4";
      "Calculus,3,0" ].


Definition no_practical_table : DataFrame :=
  mk_frame 2
    [ mk_series "course_name" [SStr "Programming using C"; SStr "Calculus"];
      mk_series "lecture_hours" [SInt 2; SInt 3] ].


(** ** Vocabulary of the statements *)

(** A column of doubles. *)
Definition float_column (vs : list scalar) : bool :=
  match vs with [] => false | _ => forallb is_float vs end.

(** The columns that the assignment has to create. *)
Definition missing_columns (df : DataFrame) : list Series :=
  (if has_column df "lecture_hours" then []
   else [mk_series "lecture_hours" (replicate (nrows df) NaN)])
  ++ (if has_column df "practical_hours" then []
      else [mk_series "practical_hours" (replicate (nrows df) NaN)]).

(** What the assignment does to one column. *)
Definition assign_hours (mask : list bool) (lecture_hours practical_hours : Int64)
    (c : Series) : Series :=
  if String.eqb (name c) "lecture_hours" then setitem_single_column mask lecture_hours c
  else if String.eqb (name c) "practical_hours" then setitem_single_column mask practical_hours c
  else c.

(** The dtype of the column under a label. *)
Definition column_dtype (df : DataFrame) (label : string) : option dtype :=
  (λ c, dtype_of (values c)) <$> find_column df label.


(** ** The masked assignment, column by column *)

Section Columns.
Implicit Types (mask : list bool) (vs : list scalar) (x y : scalar) (z : Int64).

Lemma putmask_length mask x vs : length (putmask mask x vs) = length vs.
Proof.
  revert mask; induction vs as [|v vs IH]; intros [|m mask]; simpl; auto.
Qed.

Lemma putmask_lookup mask x vs i :
  putmask mask x vs !! i =
    match mask !! i with
    | Some true => (λ _, x) <$> vs !! i
    | _ => vs !! i
    end.
Proof.
  revert mask i; induction vs as [|v vs IH]; intros [|m mask] [|i]; simpl; auto.
  - by destruct m.
  - by destruct (mask !! i) as [[]|].
  - by destruct m.
Qed.

Lemma putmask_twice mask x y vs :
  putmask mask y (putmask mask x vs) = putmask mask y vs.
Proof.
  revert mask; induction vs as [|v vs IH]; intros [|m mask]; simpl; auto.
  rewrite IH. by destruct m.
Qed.

(** A mask that selects no cell of the column leaves it as it is. *)
Lemma putmask_unselected mask x vs :
  (∀ i, mask !! i = Some true → vs !! i = None) →
  putmask mask x vs = vs.
Proof.
  revert mask; induction vs as [|v vs IH]; intros [|m mask] Hsel; simpl; auto.
  destruct m.
  - by specialize (Hsel 0%nat eq_refl).
  - f_equal. apply IH. intros i. apply (Hsel (S i)).
Qed.

Lemma putmask_float_inv mask n vs :
  forallb is_float (putmask mask (SInt n) vs) = true →
  putmask mask (SInt n) vs = vs.
Proof.
  revert mask; induction vs as [|v vs IH]; intros [|m mask]; simpl; auto.
  destruct m; simpl; [done|].
  intros [_ ?]%andb_prop. f_equal. by apply IH.
Qed.

Lemma putmask_float mask f vs :
  forallb is_float vs = true →
  forallb is_float (putmask mask (SFloat f) vs) = true.
Proof.
  revert mask; induction vs as [|v vs IH]; intros [|m mask]; simpl; auto.
  intros [Hv ?]%andb_prop. rewrite IH by done. by destruct m; simpl; rewrite ?Hv.
Qed.

Lemma dtype_of_float vs : dtype_of vs = float64 ↔ float_column vs = true.
Proof.
  destruct vs as [|v vs]; [done|].
  unfold dtype_of, float_column.
  destruct (forallb is_int (v :: vs)) eqn:Hint.
  - split; [done|]. intros Hfl. simpl in *. by destruct v.
  - destruct (forallb is_float (v :: vs)); [done|].
    by destruct (forallb is_bool (v :: vs)).
Qed.

Lemma store_cases vs z :
  store vs z =
    if float_column vs then SFloat (float_of_Z (int64_val z)) else SInt (int64_val z).
Proof.
  unfold store. pose proof (dtype_of_float vs) as Hd.
  destruct (float_column vs).
  - by rewrite (proj2 Hd eq_refl).
  - destruct (dtype_of vs); try done. by pose proof (proj1 Hd eq_refl).
Qed.

Lemma float_column_length vs vs' :
  length vs' = length vs →
  forallb is_float vs' = forallb is_float vs →
  float_column vs' = float_column vs.
Proof. by destruct vs, vs'. Qed.

(** Assigning a second time stores the same value in the same cells. *)
Lemma putmask_store_idemp mask z vs :
  let vs' := putmask mask (store vs z) vs in
  putmask mask (store vs' z) vs' = vs'.
Proof.
  simpl. rewrite !store_cases.
  destruct (float_column vs) eqn:Hfl.
  - assert (forallb is_float vs = true) as Hall by by destruct vs.
    rewrite (float_column_length vs), Hfl.
    + apply putmask_twice.
    + apply putmask_length.
    + by rewrite putmask_float.
  - destruct (float_column (putmask _ _ vs)) eqn:Hfl'.
    + assert (putmask mask (SInt (int64_val z)) vs = vs) as Heq.
      { apply putmask_float_inv.
        by destruct (putmask mask (SInt (int64_val z)) vs). }
      rewrite Heq in Hfl'. congruence.
    + apply putmask_twice.
Qed.

Lemma setitem_single_column_name mask z c :
  name (setitem_single_column mask z c) = name c.
Proof. done. Qed.

Lemma setitem_single_column_idemp mask z c :
  setitem_single_column mask z (setitem_single_column mask z c)
  = setitem_single_column mask z c.
Proof.
  unfold setitem_single_column; simpl. f_equal. apply putmask_store_idemp.
Qed.
End Columns.

(** ** The assignment on the whole frame *)

Section Frames.
Implicit Types (df : DataFrame) (c : Series) (cs : list Series) (k : string).

Lemma has_column_app df cs k :
  has_column (mk_frame (nrows df) (columns df ++ cs)) k
  = has_column df k || existsb (λ c, String.eqb (name c) k) cs.
Proof. unfold has_column; simpl. apply existsb_app. Qed.

Lemma assign_hours_name mask lh ph c : name (assign_hours mask lh ph c) = name c.
Proof.
  unfold assign_hours.
  by destruct (String.eqb (name c) "lecture_hours"),
              (String.eqb (name c) "practical_hours").
Qed.

Lemma assign_hours_split mask lh ph c :
  (if String.eqb (name (if String.eqb (name c) "lecture_hours"
                        then setitem_single_column mask lh c else c))
                 "practical_hours"
   then setitem_single_column mask ph
          (if String.eqb (name c) "lecture_hours"
           then setitem_single_column mask lh c else c)
   else (if String.eqb (name c) "lecture_hours"
         then setitem_single_column mask lh c else c))
  = assign_hours mask lh ph c.
Proof.
  unfold assign_hours.
  destruct (String.eqb (name c) "lecture_hours") eqn:Hl; [|done].
  rewrite setitem_single_column_name.
  apply String.eqb_eq in Hl. by rewrite Hl.
Qed.

(** The assignment in one step: the missing columns are appended, then
    every column is assigned to according to its label. *)
Lemma set_course_hours_unfold t lh ph df :
  set_course_hours t lh ph df =
    match find_column df "course_name" with
    | Some key =>
        Ok (mk_frame (nrows df)
              (assign_hours (series_eq key t) lh ph
                 <$> (columns df ++ missing_columns df)))
    | None => Err (KeyError "course_name")
    end.
Proof.
  unfold set_course_hours, getitem.
  destruct (find_column df "course_name") as [key|]; [|done].
  unfold mbind, result_bind, loc_setitem, ensure_listlike_indexer, missing_columns.
  simpl foldl. simpl bool_decide. cbv iota.
  set (mask := series_eq key t).
  assert (∀ df', setitem_label mask (setitem_label mask df' ("lecture_hours", lh))
                   ("practical_hours", ph)
                 = mk_frame (nrows df') (assign_hours mask lh ph <$> columns df')) as Hset.
  { intros df'. unfold setitem_label; simpl. f_equal.
    rewrite <- list_fmap_compose. apply list_fmap_ext. intros i c _. simpl.
    apply assign_hours_split. }
  rewrite Hset. clear Hset.
  destruct (has_column df "lecture_hours") eqn:Hl.
  - destruct (has_column df "practical_hours") eqn:Hp; simpl.
    + by rewrite app_nil_r.
    + done.
  - rewrite has_column_app. simpl. rewrite orb_false_r.
    destruct (has_column df "practical_hours") eqn:Hp; simpl.
    + done.
    + by rewrite <- app_assoc.
Qed.
End Frames.

Section Lookups.
Implicit Types (df : DataFrame) (c key : Series) (cs : list Series) (k t : string).

Lemma find_label_app cs cs' k :
  find (λ c, String.eqb (name c) k) (cs ++ cs')
  = match find (λ c, String.eqb (name c) k) cs with
    | Some c => Some c
    | None => find (λ c, String.eqb (name c) k) cs'
    end.
Proof.
  induction cs as [|c cs IH]; simpl; [done|].
  by destruct (String.eqb (name c) k).
Qed.

Lemma find_label_fmap (h : Series → Series) cs k :
  (∀ c, name (h c) = name c) →
  find (λ c, String.eqb (name c) k) (h <$> cs)
  = h <$> find (λ c, String.eqb (name c) k) cs.
Proof.
  intros Hname. induction cs as [|c cs IH]; simpl; [done|].
  rewrite Hname. by destruct (String.eqb (name c) k).
Qed.

Lemma has_column_find df k :
  has_column df k = true ↔ is_Some (find_column df k).
Proof.
  unfold has_column, find_column.
  induction (columns df) as [|c cs IH]; simpl.
  - split; [done|]. by intros [? ?].
  - destruct (String.eqb (name c) k); simpl; [|done].
    split; eauto.
Qed.

Lemma find_column_elem df k c :
  find_column df k = Some c → c ∈ columns df ∧ name c = k.
Proof.
  intros [Hin Hk]%find_some. split.
  - by apply list_elem_of_In.
  - by apply String.eqb_eq.
Qed.

Lemma find_missing_columns df k :
  k ≠ "lecture_hours" → k ≠ "practical_hours" →
  find (λ c, String.eqb (name c) k) (missing_columns df) = None.
Proof.
  intros Hl Hp. unfold missing_columns.
  assert (String.eqb "lecture_hours" k = false) as El
    by (apply String.eqb_neq; congruence).
  assert (String.eqb "practical_hours" k = false) as Ep
    by (apply String.eqb_neq; congruence).
  destruct (has_column df "lecture_hours"), (has_column df "practical_hours");
    cbn [app find name]; by rewrite ?El, ?Ep.
Qed.

Lemma missing_columns_nil df :
  has_column df "lecture_hours" = true →
  has_column df "practical_hours" = true →
  missing_columns df = [].
Proof. unfold missing_columns. by intros -> ->. Qed.

Lemma scalar_eq_str_true v t : scalar_eq_str v t = true ↔ v = SStr t.
Proof.
  destruct v; simpl; try (split; [done|congruence]).
  rewrite String.eqb_eq. split; congruence.
Qed.

Lemma series_eq_lookup key t i :
  series_eq key t !! i = (λ v, scalar_eq_str v t) <$> values key !! i.
Proof. unfold series_eq. apply list_lookup_fmap. Qed.

(** A row is selected exactly when its key cell is the target text. *)
Lemma series_eq_selected key t i :
  series_eq key t !! i = Some true ↔ values key !! i = Some (SStr t).
Proof.
  rewrite series_eq_lookup. destruct (values key !! i) as [v|]; simpl; [|done].
  split.
  - intros [= Hv]. f_equal. by apply scalar_eq_str_true.
  - intros [= ->]. f_equal. by apply scalar_eq_str_true.
Qed.

Lemma assign_hours_unselected mask lh ph c i :
  mask !! i ≠ Some true →
  values (assign_hours mask lh ph c) !! i = values c !! i.
Proof.
  intros Hm. unfold assign_hours, setitem_single_column.
  destruct (String.eqb (name c) "lecture_hours");
    [|destruct (String.eqb (name c) "practical_hours")];
    simpl; try done; rewrite putmask_lookup; by destruct (mask !! i) as [[]|].
Qed.

Lemma assign_hours_other mask lh ph c :
  name c ≠ "lecture_hours" → name c ≠ "practical_hours" →
  assign_hours mask lh ph c = c.
Proof.
  intros Hl%String.eqb_neq Hp%String.eqb_neq. unfold assign_hours.
  by rewrite Hl, Hp.
Qed.

Lemma assign_hours_length mask lh ph c :
  length (values (assign_hours mask lh ph c)) = length (values c).
Proof.
  unfold assign_hours, setitem_single_column.
  destruct (String.eqb (name c) "lecture_hours");
    [|destruct (String.eqb (name c) "practical_hours")];
    simpl; try done; apply putmask_length.
Qed.

(** The columns of the frame keep their place; each is assigned to
    according to its label. *)
Lemma set_course_hours_find t lh ph df df' key k c :
  find_column df "course_name" = Some key →
  set_course_hours t lh ph df = Ok df' →
  find_column df k = Some c →
  find_column df' k = Some (assign_hours (series_eq key t) lh ph c).
Proof.
  intros Hkey Hset Hc. rewrite set_course_hours_unfold, Hkey in Hset.
  injection Hset as <-. unfold find_column in *; simpl.
  rewrite find_label_fmap by apply assign_hours_name.
  by rewrite find_label_app, Hc.
Qed.

Lemma set_course_hours_find_other t lh ph df df' k :
  set_course_hours t lh ph df = Ok df' →
  k ≠ "lecture_hours" → k ≠ "practical_hours" →
  find_column df' k = find_column df k.
Proof.
  intros Hset Hl Hp. rewrite set_course_hours_unfold in Hset.
  destruct (find_column df "course_name") as [key|]; [|done].
  injection Hset as <-. unfold find_column in *; simpl.
  rewrite find_label_fmap by apply assign_hours_name.
  rewrite find_label_app, find_missing_columns by done.
  destruct (find _ (columns df)) as [c|] eqn:Hc; simpl; [|done].
  apply find_some in Hc as [_ Hk%String.eqb_eq].
  rewrite assign_hours_other; congruence.
Qed.

Lemma set_course_hours_key t lh ph df df' :
  set_course_hours t lh ph df = Ok df' →
  ∃ key, find_column df "course_name" = Some key.
Proof.
  rewrite set_course_hours_unfold.
  destruct (find_column df "course_name"); [eauto|done].
Qed.
End Lookups.

Section Assignment.
Implicit Types (df : DataFrame) (c key : Series) (k t : string) (lh ph : Int64).

Lemma assign_hours_idemp mask lh ph c :
  assign_hours mask lh ph (assign_hours mask lh ph c) = assign_hours mask lh ph c.
Proof.
  unfold assign_hours.
  destruct (String.eqb (name c) "lecture_hours") eqn:Hl.
  - by rewrite setitem_single_column_name, Hl, setitem_single_column_idemp.
  - destruct (String.eqb (name c) "practical_hours") eqn:Hp.
    + by rewrite setitem_single_column_name, Hl, Hp, setitem_single_column_idemp.
    + by rewrite Hl, Hp.
Qed.

Lemma assign_hours_no_match mask lh ph c :
  (∀ i, mask !! i ≠ Some true) → assign_hours mask lh ph c = c.
Proof.
  intros Hm. unfold assign_hours, setitem_single_column.
  assert (∀ x, putmask mask x (values c) = values c) as Hput.
  { intros x. apply putmask_unselected. intros i Hi. by destruct (Hm i). }
  destruct c as [n vs]; simpl in *.
  destruct (String.eqb n "lecture_hours"); [by rewrite Hput|].
  destruct (String.eqb n "practical_hours"); [by rewrite Hput|done].
Qed.

Lemma has_column_assigned mask lh ph df k :
  has_column (mk_frame (nrows df)
                (assign_hours mask lh ph <$> (columns df ++ missing_columns df))) k
  = has_column df k || existsb (λ c, String.eqb (name c) k) (missing_columns df).
Proof.
  unfold has_column; simpl. rewrite <- existsb_app.
  induction (columns df ++ missing_columns df) as [|c cs IH]; [done|].
  rewrite fmap_cons. cbn [existsb]. by rewrite assign_hours_name, IH.
Qed.

Lemma has_target_assigned mask lh ph df :
  has_column (mk_frame (nrows df)
                (assign_hours mask lh ph <$> (columns df ++ missing_columns df)))
             "lecture_hours" = true
  ∧ has_column (mk_frame (nrows df)
                (assign_hours mask lh ph <$> (columns df ++ missing_columns df)))
             "practical_hours" = true.
Proof.
  rewrite !has_column_assigned. unfold missing_columns.
  by destruct (has_column df "lecture_hours"), (has_column df "practical_hours").
Qed.
End Assignment.

(** ** The claims on the table *)

(** C1. The scenario of the specification: on the table of the two courses
    "Programming using C" (2, 2) and "Calculus" (3, 0), the update for
    "Programming using C" with hours 3 and 4 produces exactly the table
    "Programming using C" (3, 4), "Calculus" (3, 0); and the script turns the
    file of the first table into the file of the second. *)
Theorem concrete_scenario :
  set_course_hours "Programming using C" three four scenario_in = Ok scenario_out
  ∧ update_lot (csv := Plain.codec) {[ csv_path := scenario_file_in ]}
    = ({[ csv_path := scenario_file_out ]}, Ok ()).
Proof. split; [reflexivity | vm_compute; reflexivity]. Qed.

(** The comparison is exact: another case or a space around the name is
    another course. *)
Example other_case_not_selected :
  scalar_eq_str (SStr "programming using c") "Programming using C" = false
  ∧ scalar_eq_str (SStr " Programming using C") "Programming using C" = false
  ∧ scalar_eq_str (SStr "Programming using C ") "Programming using C" = false.
Proof. repeat split. Qed.

(** C2. Targeted mutation.  In a table whose hour columns are integer
    columns, a row whose [course_name] is exactly the target text is
    selected and afterwards holds the new lecture hours and the new practical
    hours, all its other fields being unchanged; a row whose [course_name] is
    anything else (another case, a space more) is not selected and keeps all
    its fields. *)
Theorem targeted_mutation t lh ph df df' key i v :
  rectangular df = true →
  column_dtype df "lecture_hours" = Some int64 →
  column_dtype df "practical_hours" = Some int64 →
  getitem df "course_name" = Ok key →
  values key !! i = Some v →
  set_course_hours t lh ph df = Ok df' →
  (v = SStr t →
     series_eq key t !! i = Some true
     ∧ cell df' i "lecture_hours" = Some (SInt (int64_val lh))
     ∧ cell df' i "practical_hours" = Some (SInt (int64_val ph))
     ∧ ∀ k, k ≠ "lecture_hours" → k ≠ "practical_hours" → cell df' i k = cell df i k)
  ∧ (v ≠ SStr t →
     series_eq key t !! i = Some false
     ∧ ∀ k, cell df' i k = cell df i k).
Proof.
  intros Hrect Hl Hp Hkey Hv Hset.
  unfold getitem in Hkey.
  destruct (find_column df "course_name") as [key'|] eqn:Hfind; [|done].
  injection Hkey as ->.
  assert (∀ k z c, find_column df k = Some c → dtype_of (values c) = int64 →
            series_eq key t !! i = Some true →
            values (setitem_single_column (series_eq key t) z c) !! i
            = Some (SInt (int64_val z))) as Hcell.
  { intros k z c Hc Hd Hsel. unfold setitem_single_column; simpl.
    rewrite putmask_lookup, Hsel. unfold store. rewrite Hd.
    apply find_column_elem in Hc as [Hin _].
    apply find_column_elem in Hfind as [Hin' _].
    unfold rectangular in Hrect. rewrite forallb_forall in Hrect.
    apply list_elem_of_In, Hrect, Nat.eqb_eq in Hin, Hin'.
    assert (i < length (values c))%nat as Hi.
    { rewrite Hin, <- Hin'. by apply lookup_lt_Some in Hv. }
    by destruct (lookup_lt_is_Some_2 _ _ Hi) as [w ->]. }
  split.
  - intros ->. apply series_eq_selected in Hv as Hsel.
    split; [done|].
    unfold column_dtype in Hl, Hp.
    destruct (find_column df "lecture_hours") as [cl|] eqn:Hcl; [|done].
    destruct (find_column df "practical_hours") as [cp|] eqn:Hcp; [|done].
    injection Hl as Hl. injection Hp as Hp.
    split; [|split].
    + unfold cell.
      rewrite (set_course_hours_find _ _ _ _ _ _ _ _ Hfind Hset Hcl). simpl.
      unfold assign_hours. apply find_column_elem in Hcl as Hn. destruct Hn as [_ ->].
      simpl. by eapply Hcell.
    + unfold cell.
      rewrite (set_course_hours_find _ _ _ _ _ _ _ _ Hfind Hset Hcp). simpl.
      unfold assign_hours. apply find_column_elem in Hcp as Hn. destruct Hn as [_ ->].
      simpl. by eapply Hcell.
    + intros k Hkl Hkp. unfold cell.
      by rewrite (set_course_hours_find_other _ _ _ _ _ _ Hset Hkl Hkp).
  - intros Hne.
    assert (series_eq key t !! i = Some false) as Hsel.
    { rewrite series_eq_lookup, Hv. simpl. f_equal.
      destruct (scalar_eq_str v t) eqn:E; [|done].
      by apply scalar_eq_str_true in E. }
    split; [done|].
    intros k. unfold cell.
    destruct (find_column df k) as [c|] eqn:Hc.
    + rewrite (set_course_hours_find _ _ _ _ _ _ _ _ Hfind Hset Hc). simpl.
      apply assign_hours_unselected. by rewrite Hsel.
    + rewrite set_course_hours_unfold, Hfind in Hset. injection Hset as <-.
      unfold find_column in *; simpl.
      rewrite find_label_fmap by apply assign_hours_name.
      rewrite find_label_app, Hc. simpl.
      unfold missing_columns.
      unfold column_dtype in Hl, Hp.
      destruct (find_column df "lecture_hours") eqn:Hcl; [|done].
      destruct (find_column df "practical_hours") eqn:Hcp; [|done].
      assert (has_column df "lecture_hours" = true) as ->
        by (apply has_column_find; rewrite Hcl; eauto).
      assert (has_column df "practical_hours" = true) as ->
        by (apply has_column_find; rewrite Hcp; eauto).
      done.
Qed.


(** C4. Shape.  On a table that has the three columns, the update succeeds
    and the table it yields has the same number of rows, the same columns in
    the same order, and columns of the same length. *)
Theorem shape_invariant t lh ph df :
  has_column df "course_name" = true →
  has_column df "lecture_hours" = true →
  has_column df "practical_hours" = true →
  ∃ df', set_course_hours t lh ph df = Ok df'
         ∧ nrows df' = nrows df
         ∧ column_names df' = column_names df
         ∧ Forall2 (λ c c', name c' = name c ∧ length (values c') = length (values c))
             (columns df) (columns df').
Proof.
  intros [key Hkey]%has_column_find Hl Hp.
  rewrite set_course_hours_unfold, Hkey, missing_columns_nil, app_nil_r by done.
  eexists. split; [done|]. split; [done|]. split.
  - unfold column_names; simpl. rewrite <- list_fmap_compose.
    apply list_fmap_ext. intros ? c _. apply assign_hours_name.
  - simpl. apply Forall2_fmap_r, Forall_Forall2_diag, Forall_forall.
    intros c _. split; [apply assign_hours_name | apply assign_hours_length].
Qed.

(** C5. Idempotence.  Updating the updated table with the same course and
    hours yields the updated table again (and an update that fails, fails
    again in the same way). *)
Theorem update_idempotent t lh ph df :
  set_course_hours t lh ph df ≫= set_course_hours t lh ph
  = set_course_hours t lh ph df.
Proof.
  rewrite (set_course_hours_unfold t lh ph df).
  destruct (find_column df "course_name") as [key|] eqn:Hkey; [|done].
  unfold mbind, result_bind.
  set (mask := series_eq key t).
  rewrite set_course_hours_unfold.
  assert (find_column (mk_frame (nrows df)
            (assign_hours mask lh ph <$> (columns df ++ missing_columns df)))
            "course_name" = Some key) as ->.
  { unfold find_column in *; simpl.
    rewrite find_label_fmap by apply assign_hours_name.
    rewrite find_label_app, Hkey. simpl. f_equal.
    apply find_some in Hkey as [_ Hn%String.eqb_eq].
    apply assign_hours_other; by rewrite Hn. }
  destruct (has_target_assigned mask lh ph df) as [Hl Hp].
  rewrite (missing_columns_nil _ Hl Hp), app_nil_r. simpl.
  do 2 f_equal. rewrite <- list_fmap_compose.
  apply list_fmap_ext. intros ? c _. apply assign_hours_idemp.
Qed.

Lemma set_course_hours_no_match t lh ph df key :
  getitem df "course_name" = Ok key →
  has_column df "lecture_hours" = true →
  has_column df "practical_hours" = true →
  SStr t ∉ values key →
  set_course_hours t lh ph df = Ok df.
Proof.
  intros Hkey Hl Hp Hno. unfold getitem in Hkey.
  destruct (find_column df "course_name") as [key'|] eqn:Hfind; [|done].
  injection Hkey as ->.
  rewrite set_course_hours_unfold, Hfind, missing_columns_nil, app_nil_r by done.
  f_equal. destruct df as [n cs]; simpl. f_equal.
  rewrite <- (list_fmap_id cs) at 2.
  apply list_fmap_ext. intros _ c _. apply assign_hours_no_match.
  intros i. rewrite series_eq_selected. intros Hi.
  by apply Hno, list_elem_of_lookup_2 with i.
Qed.

(** ** The claims on the files *)

Section Storage.
Context `{csv : CsvCodec}.
Implicit Types (fs : FileSystem) (source t text : string) (lh ph : Int64) (df : DataFrame).

(** The script, statement by statement. *)
Lemma update_course_hours_run source t lh ph fs :
  update_course_hours source t lh ph fs =
    match fs !! source with
    | None => (fs, Err (FileNotFoundError source))
    | Some text =>
        match parse text with
        | Err e => (fs, Err e)
        | Ok df =>
            match set_course_hours t lh ph df with
            | Err e => (fs, Err e)
            | Ok df' => (<[source := render df']> fs, Ok ())
            end
        end
    end.
Proof.
  unfold update_course_hours, mbind, io_bind, read_csv, lift, to_csv.
  destruct (fs !! source) as [text|]; [|done].
  destruct (parse text) as [df|]; [|done].
  by destruct (set_course_hours t lh ph df).
Qed.


(** Only the source file is written. *)
Lemma other_files_untouched source t lh ph fs path :
  path ≠ source →
  (update_course_hours source t lh ph fs).1 !! path = fs !! path.
Proof.
  intros Hne. rewrite update_course_hours_run.
  destruct (fs !! source) as [text|]; [|done].
  destruct (parse text) as [df|]; [|done].
  destruct (set_course_hours t lh ph df); [|done].
  simpl. by rewrite lookup_insert_ne.
Qed.

(** C6. No match.  When no row of the loaded table has the target text as
    its [course_name], the update (of a table that has the three columns)
    is not an error: the table is left as it was loaded, and the file is
    overwritten with that same table. *)
Theorem no_match_noop source t lh ph fs text df key :
  fs !! source = Some text →
  parse text = Ok df →
  getitem df "course_name" = Ok key →
  has_column df "lecture_hours" = true →
  has_column df "practical_hours" = true →
  SStr t ∉ values key →
  set_course_hours t lh ph df = Ok df
  ∧ update_course_hours source t lh ph fs = (<[source := render df]> fs, Ok ()).
Proof.
  intros Hfs Hparse Hkey Hl Hp Hno.
  pose proof (set_course_hours_no_match t lh ph df key Hkey Hl Hp Hno) as Hset.
  split; [done|].
  by rewrite update_course_hours_run, Hfs, Hparse, Hset.
Qed.






(** C8. With the three columns present, the file is replaced by the
    rendering of a table that has every row of the loaded table, in the
    same order: the fields of row [i] carry the same labels in the same
    order, every field other than the two hours is the one of row [i] of
    the loaded table, and a row of another course is the same row. *)
Theorem write_back_all_rows source t lh ph fs text df :
  fs !! source = Some text →
  parse text = Ok df →
  has_column df "course_name" = true →
  has_column df "lecture_hours" = true →
  has_column df "practical_hours" = true →
  ∃ df', update_course_hours source t lh ph fs = (<[source := render df']> fs, Ok ())
         ∧ nrows df' = nrows df
         ∧ column_names df' = column_names df
         ∧ (∀ i, Forall2 (λ f f', f'.1 = f.1
                    ∧ (f.1 ≠ "lecture_hours" → f.1 ≠ "practical_hours" → f'.2 = f.2))
                   (row df i) (row df' i))
         ∧ (∀ i, cell df i "course_name" ≠ Some (SStr t) → row df' i = row df i).
Proof.
  intros Hfs Hparse [key Hkey]%has_column_find Hl Hp.
  rewrite update_course_hours_run, Hfs, Hparse, set_course_hours_unfold, Hkey.
  rewrite missing_columns_nil, app_nil_r by done.
  eexists. split; [done|]. split; [done|]. split; [|split].
  - unfold column_names; simpl. rewrite <- list_fmap_compose.
    apply list_fmap_ext. intros _ c _. apply assign_hours_name.
  - intros i. unfold row; simpl. rewrite <- list_fmap_compose.
    apply Forall2_fmap, Forall_Forall2_diag, Forall_forall.
    intros c _. simpl. split; [apply assign_hours_name|].
    intros Hnl Hnp. by rewrite assign_hours_other.
  - intros i Hne. unfold row; simpl. rewrite <- list_fmap_compose.
    apply list_fmap_ext. intros _ c _. simpl.
    rewrite assign_hours_name. f_equal.
    apply assign_hours_unselected. rewrite series_eq_selected.
    unfold cell in Hne. by rewrite Hkey in Hne.
Qed.

(** C9. The table is read before anything is written: when loading the
    source fails (the file is missing or does not parse), the update fails
    with that error and the storage is what it was. *)
Theorem read_failure_no_write source t lh ph fs e :
  (read_csv source fs).2 = Err e →
  update_course_hours source t lh ph fs = (fs, Err e).
Proof.
  rewrite update_course_hours_run. unfold read_csv.
  destruct (fs !! source) as [text|]; simpl.
  - destruct (parse text); [done|]. by intros [= ->].
  - by intros [= ->].
Qed.

End Storage.

(** ** The theorems at work *)

Lemma targeted_mutation_witness :
  cell scenario_out 0 "lecture_hours" = Some (SInt 3)
  ∧ cell scenario_out 0 "practical_hours" = Some (SInt 4)
  ∧ cell scenario_out 0 "course_name" = cell scenario_in 0 "course_name".
Proof.
  destruct (targeted_mutation "Programming using C" three four
              scenario_in scenario_out
              (mk_series "course_name" [SStr "Programming using C"; SStr "Calculus"])
              0 (SStr "Programming using C")) as [Hsel _]; try reflexivity.
  destruct (Hsel eq_refl) as (_ & Hl & Hp & Hother).
  split; [exact Hl|]. split; [exact Hp|].
  apply Hother; discriminate.
Defined.


Lemma shape_invariant_witness :
  ∃ df', set_course_hours "Programming using C" three four scenario_in = Ok df'
         ∧ nrows df' = 2%nat
         ∧ column_names df' = ["course_name"; "lecture_hours"; "practical_hours"]
         ∧ Forall2 (λ c c', name c' = name c ∧ length (values c') = length (values c))
             (columns scenario_in) (columns df').
Proof.
  apply (shape_invariant "Programming using C" three four scenario_in); reflexivity.
Defined.

Lemma no_match_noop_witness :
  (SStr "Physics" ∉ [SStr "Programming using C"; SStr "Calculus"])
  ∧ set_course_hours "Physics" three four scenario_in = Ok scenario_in
  ∧ update_course_hours (csv := Plain.codec) csv_path "Physics" three four
      {[ csv_path := scenario_file_in ]}
    = (<[csv_path := render scenario_in]> {[ csv_path := scenario_file_in ]}, Ok ()).
Proof.
  assert (SStr "Physics" ∉ [SStr "Programming using C"; SStr "Calculus"]) as Hno
    by (apply (bool_decide_unpack _); vm_compute; exact I).
  split; [exact Hno|].
  apply (no_match_noop (csv := Plain.codec) csv_path "Physics" three four
           {[ csv_path := scenario_file_in ]} scenario_file_in scenario_in
           (mk_series "course_name" [SStr "Programming using C"; SStr "Calculus"]));
    try reflexivity; exact Hno.
Defined.



Lemma write_back_all_rows_witness :
  ∃ df', update_lot (csv := Plain.codec) {[ csv_path := scenario_file_in ]}
         = (<[csv_path := render df']> {[ csv_path := scenario_file_in ]}, Ok ())
         ∧ nrows df' = nrows scenario_in
         ∧ column_names df' = column_names scenario_in
         ∧ (∀ i, Forall2 (λ f f', f'.1 = f.1
                    ∧ (f.1 ≠ "lecture_hours" → f.1 ≠ "practical_hours" → f'.2 = f.2))
                   (row scenario_in i) (row df' i))
         ∧ (∀ i, cell scenario_in i "course_name" ≠ Some (SStr "Programming using C") →
                 row df' i = row scenario_in i).
Proof.
  apply (write_back_all_rows (csv := Plain.codec) csv_path "Programming using C"
           three four {[ csv_path := scenario_file_in ]} scenario_file_in scenario_in);
    try reflexivity; vm_compute; reflexivity.
Defined.

Lemma read_failure_no_write_witness :
  (read_csv (csv := Plain.codec) csv_path {[ csv_path := "" ]}).2 = Err EmptyDataError
  ∧ update_lot (csv := Plain.codec) {[ csv_path := "" ]}
    = ({[ csv_path := "" ]}, Err EmptyDataError).
Proof.
  split; [reflexivity|].
  apply (read_failure_no_write (csv := Plain.codec) csv_path "Programming using C"
           three four {[ csv_path := "" ]} EmptyDataError).
  reflexivity.
Defined.


(** Running the script on the file it has written changes nothing more. *)
Example scenario_twice :
  update_lot (csv := Plain.codec) {[ csv_path := scenario_file_out ]}
  = ({[ csv_path := scenario_file_out ]}, Ok ()).
Proof. vm_compute. reflexivity. Qed.

(** In a column of doubles the new value is held as a double. *)
Example float_column_example :
  set_course_hours "Programming using C" three four
    (mk_frame 2
       [ mk_series "course_name" [SStr "Programming using C"; SStr "Calculus"];
         mk_series "lecture_hours" [NaN; SFloat (float_of_Z 3)];
         mk_series "practical_hours" [SInt 2; SInt 0] ])
  = Ok (mk_frame 2
       [ mk_series "course_name" [SStr "Programming using C"; SStr "Calculus"];
         mk_series "lecture_hours" [SFloat (float_of_Z 3); SFloat (float_of_Z 3)];
         mk_series "practical_hours" [SInt 4; SInt 0] ]).
Proof. vm_compute. reflexivity. Qed.

(** ** How assignments compose *)

Section Composition.
Implicit Types (mask : list bool) (vs : list scalar) (x y : scalar) (z : Int64).
Implicit Types (df : DataFrame) (c key : Series) (k t : string) (lh ph : Int64).

(** An assignment does not turn a column of doubles into another kind of
    column, nor another kind of column into a column of doubles. *)
Lemma float_column_putmask_store mask z vs :
  float_column (putmask mask (store vs z) vs) = float_column vs.
Proof.
  rewrite store_cases. destruct (float_column vs) eqn:Hfl.
  - assert (forallb is_float vs = true) as Hall by by destruct vs.
    rewrite (float_column_length vs), Hfl; [done | apply putmask_length |].
    by rewrite putmask_float.
  - destruct (float_column (putmask _ _ vs)) eqn:Hfl'; [|done].
    assert (putmask mask (SInt (int64_val z)) vs = vs) as Heq.
    { apply putmask_float_inv.
      by destruct (putmask mask (SInt (int64_val z)) vs). }
    rewrite Heq in Hfl'. congruence.
Qed.

Lemma store_putmask mask z z' vs :
  store (putmask mask (store vs z) vs) z' = store vs z'.
Proof. by rewrite !(store_cases _ z'), float_column_putmask_store. Qed.

Lemma putmask_comm mask mask' x y vs :
  (∀ i, mask !! i = Some true → mask' !! i ≠ Some true) →
  putmask mask x (putmask mask' y vs) = putmask mask' y (putmask mask x vs).
Proof.
  revert mask mask'; induction vs as [|v vs IH]; intros [|a mask] [|b mask'] Hdis;
    simpl; auto.
  rewrite IH by (intros i; apply (Hdis (S i))).
  destruct a, b; try done. by destruct (Hdis 0%nat eq_refl).
Qed.

Lemma setitem_single_column_overwrite mask z z' c :
  setitem_single_column mask z' (setitem_single_column mask z c)
  = setitem_single_column mask z' c.
Proof.
  unfold setitem_single_column; simpl. f_equal.
  by rewrite store_putmask, putmask_twice.
Qed.

Lemma setitem_single_column_comm mask mask' z z' c :
  (∀ i, mask !! i = Some true → mask' !! i ≠ Some true) →
  setitem_single_column mask z (setitem_single_column mask' z' c)
  = setitem_single_column mask' z' (setitem_single_column mask z c).
Proof.
  intros Hdis. unfold setitem_single_column; simpl. f_equal.
  rewrite !store_putmask. by apply putmask_comm.
Qed.

Lemma assign_hours_overwrite mask lh ph lh' ph' c :
  assign_hours mask lh' ph' (assign_hours mask lh ph c) = assign_hours mask lh' ph' c.
Proof.
  unfold assign_hours.
  destruct (String.eqb (name c) "lecture_hours") eqn:Hl.
  - by rewrite setitem_single_column_name, Hl, setitem_single_column_overwrite.
  - destruct (String.eqb (name c) "practical_hours") eqn:Hp.
    + by rewrite setitem_single_column_name, Hl, Hp, setitem_single_column_overwrite.
    + by rewrite Hl, Hp.
Qed.

Lemma assign_hours_comm mask mask' lh ph lh' ph' c :
  (∀ i, mask !! i = Some true → mask' !! i ≠ Some true) →
  assign_hours mask lh ph (assign_hours mask' lh' ph' c)
  = assign_hours mask' lh' ph' (assign_hours mask lh ph c).
Proof.
  intros Hdis. unfold assign_hours.
  destruct (String.eqb (name c) "lecture_hours") eqn:Hl.
  - by rewrite !setitem_single_column_name, Hl, setitem_single_column_comm.
  - destruct (String.eqb (name c) "practical_hours") eqn:Hp.
    + by rewrite !setitem_single_column_name, Hl, Hp, setitem_single_column_comm.
    + by rewrite Hl, Hp.
Qed.

(** A second assignment finds the key column as the first one found it and
    has no column left to create. *)
Lemma set_course_hours_assigned t lh ph t' lh' ph' df key :
  find_column df "course_name" = Some key →
  set_course_hours t' lh' ph'
    (mk_frame (nrows df)
       (assign_hours (series_eq key t) lh ph <$> (columns df ++ missing_columns df)))
  = Ok (mk_frame (nrows df)
          (assign_hours (series_eq key t') lh' ph'
             <$> (assign_hours (series_eq key t) lh ph
                    <$> (columns df ++ missing_columns df)))).
Proof.
  intros Hkey. rewrite set_course_hours_unfold.
  assert (find_column (mk_frame (nrows df)
            (assign_hours (series_eq key t) lh ph <$> (columns df ++ missing_columns df)))
            "course_name" = Some key) as ->.
  { unfold find_column in *; simpl.
    rewrite find_label_fmap by apply assign_hours_name.
    rewrite find_label_app, Hkey. simpl. f_equal.
    apply find_some in Hkey as [_ Hn%String.eqb_eq].
    apply assign_hours_other; by rewrite Hn. }
  destruct (has_target_assigned (series_eq key t) lh ph df) as [Hl Hp].
  by rewrite (missing_columns_nil _ Hl Hp), app_nil_r.
Qed.

Lemma set_course_hours_twice t lh ph lh' ph' df :
  set_course_hours t lh ph df ≫= set_course_hours t lh' ph'
  = set_course_hours t lh' ph' df.
Proof.
  rewrite (set_course_hours_unfold t lh ph df), (set_course_hours_unfold t lh' ph' df).
  destruct (find_column df "course_name") as [key|] eqn:Hkey; [|done].
  unfold mbind, result_bind. rewrite set_course_hours_assigned by done.
  do 2 f_equal. rewrite <- list_fmap_compose.
  apply list_fmap_ext. intros _ c _. apply assign_hours_overwrite.
Qed.

Lemma series_eq_disjoint key t t' i :
  t ≠ t' → series_eq key t !! i = Some true → series_eq key t' !! i ≠ Some true.
Proof.
  intros Hne Ht Ht'. apply series_eq_selected in Ht, Ht'. congruence.
Qed.
End Composition.

(** X1. The last assignment wins: assigning hours to a course and then other
    hours to the same course yields what assigning the other hours alone
    yields, whatever the table. *)
Theorem last_assignment_wins t lh ph lh' ph' df :
  set_course_hours t lh ph df ≫= set_course_hours t lh' ph'
  = set_course_hours t lh' ph' df.
Proof. apply set_course_hours_twice. Qed.

(** X2. Assignments to two different courses commute: either order yields
    the same table (or the same error). *)
Theorem assignments_commute t t' lh ph lh' ph' df :
  t ≠ t' →
  set_course_hours t lh ph df ≫= set_course_hours t' lh' ph'
  = set_course_hours t' lh' ph' df ≫= set_course_hours t lh ph.
Proof.
  intros Hne.
  rewrite (set_course_hours_unfold t lh ph df), (set_course_hours_unfold t' lh' ph' df).
  destruct (find_column df "course_name") as [key|] eqn:Hkey; [|done].
  unfold mbind, result_bind. rewrite !set_course_hours_assigned by done.
  do 2 f_equal. rewrite <- !list_fmap_compose.
  apply list_fmap_ext. intros _ c _. simpl.
  apply assign_hours_comm. intros i. by apply series_eq_disjoint.
Qed.

Lemma assignments_commute_witness :
  "Programming using C" ≠ "Calculus"
  ∧ set_course_hours "Programming using C" three four scenario_in
      ≫= set_course_hours "Calculus" four three
    = set_course_hours "Calculus" four three scenario_in
      ≫= set_course_hours "Programming using C" three four.
Proof.
  split; [discriminate|].
  apply (assignments_commute "Programming using C" "Calculus" three four four three
           scenario_in).
  discriminate.
Defined.

(** ** What the assignment keeps *)

Section Invariants.
Implicit Types (mask : list bool) (vs : list scalar) (z : Int64).
Implicit Types (df : DataFrame) (c key : Series) (k t : string) (lh ph : Int64).

Lemma putmask_int mask n vs :
  forallb is_int vs = true → forallb is_int (putmask mask (SInt n) vs) = true.
Proof.
  revert mask; induction vs as [|v vs IH]; intros [|m mask]; simpl; auto.
  intros [Hv ?]%andb_prop. rewrite IH by done. by destruct m; simpl; rewrite ?Hv.
Qed.

Lemma dtype_of_int vs :
  dtype_of vs = int64 ↔ vs ≠ [] ∧ forallb is_int vs = true.
Proof.
  destruct vs as [|v vs]; [by split; [|intros [? _]]|].
  unfold dtype_of. destruct (forallb is_int (v :: vs)); [by split|].
  split; [|by intros [_ ?]].
  destruct (forallb is_float (v :: vs)); [done|].
  by destruct (forallb is_bool (v :: vs)).
Qed.

Lemma dtype_of_putmask_store mask z vs d :
  d = int64 ∨ d = float64 →
  dtype_of vs = d → dtype_of (putmask mask (store vs z) vs) = d.
Proof.
  intros [-> | ->] Hd.
  - unfold store. rewrite Hd. apply dtype_of_int in Hd as [Hne Hint].
    apply dtype_of_int. split; [|by apply putmask_int].
    intros Hnil. apply Hne, length_zero_iff_nil.
    by rewrite <- (putmask_length mask (SInt (int64_val z))), Hnil.
  - apply dtype_of_float. rewrite float_column_putmask_store.
    by apply dtype_of_float.
Qed.

Lemma assign_hours_dtype mask lh ph c d :
  d = int64 ∨ d = float64 →
  dtype_of (values c) = d → dtype_of (values (assign_hours mask lh ph c)) = d.
Proof.
  intros Hd Hc. unfold assign_hours, setitem_single_column.
  destruct (String.eqb (name c) "lecture_hours");
    [|destruct (String.eqb (name c) "practical_hours")];
    simpl; try done; by apply dtype_of_putmask_store.
Qed.

Lemma missing_columns_length df c :
  c ∈ missing_columns df → length (values c) = nrows df.
Proof.
  unfold missing_columns.
  destruct (has_column df "lecture_hours"), (has_column df "practical_hours");
    simpl; rewrite ?elem_of_cons, ?elem_of_nil;
    intros H; repeat destruct H as [H|H]; subst; simpl;
    by rewrite ?length_replicate.
Qed.
End Invariants.

(** X3. The frame stays rectangular: when every column of the loaded table
    spans the index, so does every column of the assigned table, the columns
    the assignment creates included. *)
Theorem assignment_keeps_rectangular t lh ph df df' :
  rectangular df = true →
  set_course_hours t lh ph df = Ok df' →
  rectangular df' = true.
Proof.
  intros Hrect Hset. rewrite set_course_hours_unfold in Hset.
  destruct (find_column df "course_name") as [key|]; [|done].
  injection Hset as <-. unfold rectangular in *; simpl.
  rewrite forallb_forall in *. intros c' Hin%list_elem_of_In.
  apply list_elem_of_fmap in Hin as (c & -> & Hin).
  rewrite assign_hours_length. apply Nat.eqb_eq.
  apply elem_of_app in Hin as [Hin | Hin].
  - by apply Nat.eqb_eq, Hrect, list_elem_of_In.
  - by apply missing_columns_length.
Qed.

Lemma assignment_keeps_rectangular_witness :
  rectangular no_practical_table = true
  ∧ ∃ df', set_course_hours "Programming using C" three four no_practical_table = Ok df'
           ∧ rectangular df' = true.
Proof.
  split; [reflexivity|]. eexists. split; [reflexivity|].
  apply (assignment_keeps_rectangular "Programming using C" three four no_practical_table);
    reflexivity.
Defined.

(** X4. Column types are kept: a column of integers is a column of integers
    after the assignment, and a column of doubles a column of doubles; this
    holds for the two hour columns as for the others. *)
Theorem assignment_keeps_dtype t lh ph df df' k d :
  d = int64 ∨ d = float64 →
  column_dtype df k = Some d →
  set_course_hours t lh ph df = Ok df' →
  column_dtype df' k = Some d.
Proof.
  intros Hd Hk Hset. unfold column_dtype in *.
  destruct (find_column df k) as [c|] eqn:Hc; [|done].
  destruct (set_course_hours_key _ _ _ _ _ Hset) as [key Hkey].
  rewrite (set_course_hours_find _ _ _ _ _ _ _ _ Hkey Hset Hc). simpl in *.
  f_equal. apply assign_hours_dtype; [done | congruence].
Qed.

Lemma assignment_keeps_dtype_witness :
  column_dtype scenario_in "lecture_hours" = Some int64
  ∧ column_dtype scenario_out "lecture_hours" = Some int64.
Proof.
  split; [reflexivity|].
  apply (assignment_keeps_dtype "Programming using C" three four scenario_in scenario_out
           "lecture_hours" int64); [by left | reflexivity | reflexivity].
Defined.

(** X5. Only the two hour columns are assigned to: every other column,
    [course_name] among them, is the same column after the assignment, on
    all rows and whatever the rows selected. *)
Theorem other_columns_untouched t lh ph df df' k :
  set_course_hours t lh ph df = Ok df' →
  k ≠ "lecture_hours" → k ≠ "practical_hours" →
  find_column df' k = find_column df k.
Proof. apply set_course_hours_find_other. Qed.

Lemma other_columns_untouched_witness :
  find_column scenario_out "course_name" = find_column scenario_in "course_name".
Proof.
  apply (other_columns_untouched "Programming using C" three four scenario_in scenario_out);
    [reflexivity | discriminate | discriminate].
Defined.

(** X6. What a selected row holds afterwards, for any kind of hour column:
    in a column of doubles the new hours as a double, in any other column
    the integer itself. *)
Theorem selected_cell_by_column_kind t lh ph df df' key i k z c :
  (k = "lecture_hours" ∧ z = lh) ∨ (k = "practical_hours" ∧ z = ph) →
  rectangular df = true →
  getitem df "course_name" = Ok key →
  values key !! i = Some (SStr t) →
  find_column df k = Some c →
  set_course_hours t lh ph df = Ok df' →
  cell df' i k
  = Some (if float_column (values c)
          then SFloat (float_of_Z (int64_val z)) else SInt (int64_val z)).
Proof.
  intros Hk Hrect Hkey Hv Hc Hset. unfold getitem in Hkey.
  destruct (find_column df "course_name") as [key'|] eqn:Hfind; [|done].
  injection Hkey as ->.
  unfold cell. rewrite (set_course_hours_find _ _ _ _ _ _ _ _ Hfind Hset Hc). simpl.
  assert (values (setitem_single_column (series_eq key t) z c) !! i
          = Some (store (values c) z)) as Hcell.
  { unfold setitem_single_column; simpl.
    rewrite putmask_lookup, (proj2 (series_eq_selected key t i) Hv).
    apply find_column_elem in Hc as [Hin _].
    apply find_column_elem in Hfind as [Hin' _].
    unfold rectangular in Hrect. rewrite forallb_forall in Hrect.
    apply list_elem_of_In, Hrect, Nat.eqb_eq in Hin, Hin'.
    assert (i < length (values c))%nat as Hi.
    { rewrite Hin, <- Hin'. by apply lookup_lt_Some in Hv. }
    by destruct (lookup_lt_is_Some_2 _ _ Hi) as [w ->]. }
  rewrite <- store_cases, <- Hcell. f_equal.
  apply find_column_elem in Hc as [_ Hn]. unfold assign_hours. rewrite Hn.
  by destruct Hk as [[-> ->] | [-> ->]].
Qed.

Lemma selected_cell_by_column_kind_witness :
  cell scenario_out 0 "practical_hours" = Some (SInt 4).
Proof.
  apply (selected_cell_by_column_kind "Programming using C" three four
           scenario_in scenario_out
           (mk_series "course_name" [SStr "Programming using C"; SStr "Calculus"])
           0 "practical_hours" four
           (mk_series "practical_hours" [SInt 2; SInt 0]));
    [by right | reflexivity | reflexivity | reflexivity | reflexivity | reflexivity].
Defined.

(** ** What the script does to the storage *)

Section Runs.
Context `{csv : CsvCodec}.
Implicit Types (fs : FileSystem) (source t text : string) (lh ph : Int64) (df : DataFrame).


(** X8. The script writes the source file and no other: the contents of any
    other path are what they were, whether the run succeeds or raises. *)
Theorem only_source_written source t lh ph fs path :
  path ≠ source →
  (update_course_hours source t lh ph fs).1 !! path = fs !! path.
Proof. apply other_files_untouched. Qed.

End Runs.


Lemma only_source_written_witness :
  let fs : FileSystem := <["notes.txt" := "timetable"]> {[ csv_path := scenario_file_in ]} in
  "notes.txt" ≠ csv_path
  ∧ (update_lot (csv := Plain.codec) fs).1 !! "notes.txt" = fs !! "notes.txt".
Proof.
  intros fs. split; [discriminate|].
  apply (only_source_written (csv := Plain.codec) csv_path "Programming using C"
           three four fs "notes.txt").
  discriminate.
Defined.

